(** * DataProduct: versioned strategies over chains of handlers

    A shallow embedding of the TypeScript sources of the DataProduct module:
    the abstract [Handler] with its linked successor, the concrete handlers
    of the create and update pipelines, the repository over the Mongoose
    model, the two versioned strategies and the strategy factory.

    Asynchronous methods are functions in a small monad that threads the
    state of the process (documents, successor links, console) and
    distinguishes a fulfilled promise, a rejected one, and a computation
    that is still running when its step budget is used up. *)

From stdpp Require Import base strings gmap list functions pretty.

Set Default Proof Using "Type".

(* ===================================================================== *)
(** * Part I: definitions *)
(* ===================================================================== *)

(** ** Exceptions and outcomes *)

(** The sources raise plain [Error] objects ([throw new Error(...)]); the
    runtime raises a [TypeError] when a property of [null] is read. *)
Inductive Exception :=
| Error (message : string)
| TypeError (message : string).

#[global] Instance Exception_eq_dec : EqDecision Exception.
Proof. solve_decision. Defined.

(** Outcome of awaiting a promise in a state of type [W]. [OutOfFuel w] is
    not a JavaScript outcome: the call was still running, in state [w], when
    the step budget of the model was used up. *)
Inductive Result (W A : Type) :=
| Ok (a : A) (w : W)
| Throw (e : Exception) (w : W)
| OutOfFuel (w : W).
Arguments Ok {W A} a w.
Arguments Throw {W A} e w.
Arguments OutOfFuel {W A} w.

Definition M (W A : Type) : Type := W → Result W A.

Definition ret {W A} (a : A) : M W A := λ w, Ok a w.

Definition bind {W A B} (m : M W A) (k : A → M W B) : M W B :=
  λ w, match m w with
       | Ok a w' => k a w'
       | Throw e w' => Throw e w'
       | OutOfFuel w' => OutOfFuel w'
       end.

Definition throw {W A} (e : Exception) : M W A := λ w, Throw e w.
Definition get {W} : M W W := λ w, Ok w w.
Definition put {W} (w : W) : M W unit := λ _, Ok tt w.

Declare Scope async_scope.
Delimit Scope async_scope with async.
Notation "'let!' x ':=' m 'in' k" := (bind m (λ x, k))
  (at level 10, x name, m at level 100, k at level 200) : async_scope.
Notation "m ';;' k" := (bind m (λ _, k))
  (at level 100, k at level 200, right associativity) : async_scope.
Open Scope async_scope.

(** ** The abstract handler (commons/base.handler)

    [Handler<T>] is abstract in [process]. A handler object is named by a
    reference of type [H]; its [next] field lives in the state and is read
    through [next]. A subclass may call [handle] from inside [process]
    ([super.handle]), so [process] receives [handle] as its first argument;
    the recursion is bounded by a step budget. *)
Section Handler.
Context {H T W : Type}.
Variable next : W → H → option H.
Variable process : (H → T → M W unit) → H → T → M W unit.

Fixpoint handle (fuel : nat) (this : H) (request : T) : M W unit :=
  match fuel with
  | O => λ w, OutOfFuel w
  | S fuel' =>
      process (handle fuel') this request ;;
      let! w := get in
      match next w this with
      | Some successor => handle fuel' successor request
      | None => ret tt
      end
  end.

(** The words of the specification: the stages of a chain run in the
    declared order, and the first failure halts the rest. *)
Fixpoint run_in_order (inner : H → T → M W unit) (stages : list H)
    (request : T) : M W unit :=
  match stages with
  | [] => ret tt
  | stage :: rest =>
      process inner stage request ;;
      run_in_order inner rest request
  end.

(** [linked w h rest]: in state [w] the successor links lead from [h]
    through [rest], and the last handler has no successor. *)
Fixpoint linked (w : W) (h : H) (rest : list H) : Prop :=
  match rest with
  | [] => next w h = None
  | h' :: rest' => next w h = Some h' ∧ linked w h' rest'
  end.

(** A handler whose [process] never calls [handle]. *)
Definition plain (h : H) : Prop :=
  ∀ inner inner' request w,
    process inner h request w = process inner' h request w.

(** A handler whose [process] rewires no successor link when it succeeds. *)
Definition keeps_links (h : H) : Prop :=
  ∀ inner request w a w',
    process inner h request w = Ok a w' → ∀ h', next w' h' = next w h'.
End Handler.

(** A test double for chains: three stages wired A, B, C that record their
    invocation in the state, which is the log; the stage named by [failing]
    raises after recording itself. *)
Inductive Stage := StageA | StageB | StageC.

#[global] Instance Stage_eq_dec : EqDecision Stage.
Proof. solve_decision. Defined.

Definition recorder_next (log : list Stage) (s : Stage) : option Stage :=
  match s with
  | StageA => Some StageB
  | StageB => Some StageC
  | StageC => None
  end.

Definition recorder_process (failing : option Stage)
    (inner : Stage → unit → M (list Stage) unit) (s : Stage) (request : unit)
    : M (list Stage) unit :=
  λ log,
    if bool_decide (failing = Some s)
    then Throw (Error "stage failed") (log ++ [s])
    else Ok tt (log ++ [s]).

(** ** Data model *)

(** The request object. Every field is optional at run time: a field the
    client left out reads as [undefined], here [None]. Dates are
    milliseconds since the epoch. *)
Module DataProductDto.
Record t := mk {
  id : option string;
  name : option string;
  infoport : option string;
  description : option string;
  status : option string;
  createdAt : option nat;
  updatedAt : option nat }.

#[global] Instance eq_dec : EqDecision t.
Proof. solve_decision. Defined.

(** [dto.id = i] *)
Definition set_id (i : string) (dto : t) : t :=
  mk (Some i) (name dto) (infoport dto) (description dto) (status dto)
     (createdAt dto) (updatedAt dto).
End DataProductDto.

(** A handler receives a reference to the request; [None] is [null]. *)
Definition Request : Type := option DataProductDto.t.

(** Modelled from the spec: the stored document of the Mongoose schema
    (infra/mongoose/data-product.schema, described in the README and not
    among the sources): [name] is required, [status] defaults to ACTIVE,
    and the timestamps are kept by the store. *)
Module DataProductEntity.
Record t := mk {
  _id : string;
  name : string;
  description : option string;
  status : string;
  createdAt : nat;
  updatedAt : nat }.

#[global] Instance eq_dec : EqDecision t.
Proof. solve_decision. Defined.

(** [Partial<DataProductEntity>], as built by the mapper. *)
Record partial := mkPartial {
  p_name : option string;
  p_description : option string;
  p_status : option string }.
End DataProductEntity.

(** Modelled from the spec: the mapper the repository imports
    (mappers/dataproduct.mapper with [toEntity] and [toDto]) is not among
    the sources; this is the mapper of the README. [toEntity] drops the
    identifier and the timestamps of the request. *)
Module DataProductMapper.
Definition toDto (entity : DataProductEntity.t) : DataProductDto.t :=
  DataProductDto.mk
    (Some (DataProductEntity._id entity))
    (Some (DataProductEntity.name entity))
    None
    (DataProductEntity.description entity)
    (Some (DataProductEntity.status entity))
    (Some (DataProductEntity.createdAt entity))
    (Some (DataProductEntity.updatedAt entity)).

Definition toEntity (dto : DataProductDto.t) : DataProductEntity.partial :=
  DataProductEntity.mkPartial
    (DataProductDto.name dto)
    (DataProductDto.description dto)
    (Some (default "ACTIVE" (DataProductDto.status dto))).
End DataProductMapper.

(** ** Handler objects and the state of the process *)

(** One object per handler class: the classes are injectable singletons. *)
Inductive HandlerRef :=
| ValidateCreateHandler
| BusinessCreateHandler
| AuditCreateHandler
| ValidateUpdateHandler
| BusinessUpdateHandler
| BusinessUpdateHandlerV2
| AuditUpdateHandler
| MessageUpdateHandler.

#[global] Instance HandlerRef_eq_dec : EqDecision HandlerRef.
Proof. solve_decision. Defined.

Record World := mkWorld {
  collection : gmap string DataProductEntity.t; (* documents by _id *)
  oids : nat;                                   (* identifiers handed out *)
  clock : nat;                                  (* the store's clock *)
  successor : HandlerRef → option HandlerRef;   (* the [next] fields *)
  console : list (string * Request) }.          (* console.log lines *)

Definition Async (A : Type) : Type := M World A.

Definition set_collection (c : gmap string DataProductEntity.t) (t : nat)
    (w : World) : World :=
  mkWorld c (oids w) t (successor w) (console w).

(** [console.log(label, request)] *)
Definition console_log (label : string) (request : Request) : Async unit :=
  λ w, Ok tt (mkWorld (collection w) (oids w) (clock w) (successor w)
                (console w ++ [(label, request)])).

(** [handler.field] on a possibly null reference. *)
Definition deref (field : string) (request : Request)
    : Async DataProductDto.t :=
  match request with
  | Some dto => ret dto
  | None =>
      throw (TypeError
        ("Cannot read properties of null (reading '" +:+ field +:+ "')"))
  end.

(** JavaScript's [!s] for an optional string. *)
Definition falsy (s : option string) : bool :=
  match s with
  | None | Some "" => true
  | Some _ => false
  end.

(** [String.prototype.trim] on the white space of ASCII. *)
Definition is_white (c : Ascii.ascii) : bool :=
  let n := Ascii.nat_of_ascii c in
  (Nat.eqb n 32) || ((Nat.leb 9 n) && (Nat.leb n 13)).

Fixpoint trimStart (s : string) : string :=
  match s with
  | String c s' => if is_white c then trimStart s' else s
  | EmptyString => EmptyString
  end.

Definition trim (s : string) : string :=
  String.rev (trimStart (String.rev (trimStart s))).

(** Modelled from the spec: the Mongoose model [DataProductModel] is an
    external collaborator. [create] validates the required name and the
    status enumeration, hands out a fresh identifier and stamps both dates
    with the store's clock; [findByIdAndUpdate] overwrites the fields that
    are present in the update, stamps [updatedAt] and resolves with the new
    document, or with [null] when no document has the identifier (also when
    the identifier is [undefined]); [findByIdAndDelete] removes the
    document if there is one. *)
Module DataProductModel.
Definition create (doc : DataProductEntity.partial)
    : Async DataProductEntity.t :=
  λ w,
    match DataProductEntity.p_name doc with
    | None =>
        Throw (Error "DataProduct validation failed: name is required") w
    | Some n =>
        let st := default "ACTIVE" (DataProductEntity.p_status doc) in
        if bool_decide (st = "ACTIVE") || bool_decide (st = "INACTIVE") then
          let e := DataProductEntity.mk (pretty (oids w)) n
                     (DataProductEntity.p_description doc) st
                     (clock w) (clock w) in
          Ok e (mkWorld (<[pretty (oids w) := e]> (collection w))
                  (S (oids w)) (S (clock w)) (successor w) (console w))
        else
          Throw (Error "DataProduct validation failed: status") w
    end.

Definition findById (i : string) : Async (option DataProductEntity.t) :=
  λ w, Ok (collection w !! i) w.

Definition merge (old : DataProductEntity.t)
    (doc : DataProductEntity.partial) (now : nat) : DataProductEntity.t :=
  DataProductEntity.mk
    (DataProductEntity._id old)
    (default (DataProductEntity.name old) (DataProductEntity.p_name doc))
    (match DataProductEntity.p_description doc with
     | Some d => Some d
     | None => DataProductEntity.description old
     end)
    (default (DataProductEntity.status old)
       (DataProductEntity.p_status doc))
    (DataProductEntity.createdAt old)
    now.

Definition findByIdAndUpdate (i : option string)
    (doc : DataProductEntity.partial) : Async (option DataProductEntity.t) :=
  λ w,
    match i with
    | None => Ok None w
    | Some i =>
        match collection w !! i with
        | None => Ok None w
        | Some old =>
            let e := merge old doc (clock w) in
            Ok (Some e)
               (set_collection (<[i := e]> (collection w)) (S (clock w)) w)
        end
    end.

Definition findByIdAndDelete (i : string)
    : Async (option DataProductEntity.t) :=
  λ w, Ok (collection w !! i)
          (set_collection (delete i (collection w)) (clock w) w).
End DataProductModel.

(** ** The repository (domain/repositories/dataproduct.repository) *)
Module DataProductRepository.
Definition create (dto : DataProductDto.t) : Async DataProductDto.t :=
  let! entity := DataProductModel.create (DataProductMapper.toEntity dto) in
  ret (DataProductMapper.toDto entity).

Definition findById (i : string) : Async (option DataProductDto.t) :=
  let! entity := DataProductModel.findById i in
  ret (match entity with
       | Some e => Some (DataProductMapper.toDto e)
       | None => None
       end).

Definition update (i : option string) (dto : DataProductDto.t)
    : Async (option DataProductDto.t) :=
  let! entity :=
    DataProductModel.findByIdAndUpdate i (DataProductMapper.toEntity dto) in
  ret (match entity with
       | Some e => Some (DataProductMapper.toDto e)
       | None => None
       end).

Definition delete (i : string) : Async unit :=
  DataProductModel.findByIdAndDelete i ;;
  ret tt.
End DataProductRepository.

(** ** Concrete handlers *)

(** [handler.setNext(successor)]: stores the link and returns its argument. *)
Definition setNext (this handler : HandlerRef) : Async HandlerRef :=
  λ w, Ok handler
         (mkWorld (collection w) (oids w) (clock w)
            (<[this := Some handler]> (successor w)) (console w)).

(** handlers/create/audit.handler *)
Definition AuditCreateHandler_process (request : Request) : Async unit :=
  console_log "Audit log:" request.

(** handlers/create/businesslogic.handler: the body is empty. *)
Definition BusinessCreateHandler_process (request : Request) : Async unit :=
  ret tt.

(** handlers/update/message.handler *)
Definition MessageUpdateHandler_process (request : Request) : Async unit :=
  console_log "Message published:" request.

(** handlers/update/validation.handler *)
Definition ValidateUpdateHandler_process (request : Request) : Async unit :=
  let! dto := deref "name" request in
  if falsy (DataProductDto.name dto) || falsy (DataProductDto.infoport dto)
  then throw (Error "Validation failed")
  else ret tt.

(** handlers/update/v2/businesslogic.handler: [super.handle] is the
    inherited [handle] of this very object, passed in as [handle]. *)
Definition BusinessUpdateHandlerV2_process
    (handle : HandlerRef → Request → Async unit) (request : Request)
    : Async unit :=
  let! dto := deref "id" request in
  let! updated := DataProductRepository.update (DataProductDto.id dto) dto in
  handle BusinessUpdateHandlerV2 updated.

(** Modelled from the spec: handlers/create/validation.handler is not
    among the sources. It enforces the minimum length of the name after
    trimming, raises a validation error, and does not touch the
    repository. *)
Definition ValidateCreateHandler_process (request : Request) : Async unit :=
  let! dto := deref "name" request in
  match DataProductDto.name dto with
  | None => throw (Error "name is required")
  | Some n =>
      if String.length (trim n) <? 3
      then throw (Error "name must be at least 3 characters")
      else ret tt
  end.

(** Modelled from the spec: handlers/update/businesslogic.handler (the v1
    business step) is not among the sources. It persists the update through
    the repository as a direct overwrite of the fields present in the
    request, as the README's v1 handler does. *)
Definition BusinessUpdateHandler_process (request : Request) : Async unit :=
  let! dto := deref "id" request in
  DataProductRepository.update (DataProductDto.id dto) dto ;;
  ret tt.

(** Modelled from the spec: handlers/update/audit.handler is not among
    the sources. It records an audit entry describing the payload, like its
    sibling of the create pipeline. *)
Definition AuditUpdateHandler_process (request : Request) : Async unit :=
  console_log "Audit log:" request.

(** Dynamic dispatch of [this.process(request)]. *)
Definition process (handle : HandlerRef → Request → Async unit)
    (this : HandlerRef) (request : Request) : Async unit :=
  match this with
  | ValidateCreateHandler => ValidateCreateHandler_process request
  | BusinessCreateHandler => BusinessCreateHandler_process request
  | AuditCreateHandler => AuditCreateHandler_process request
  | ValidateUpdateHandler => ValidateUpdateHandler_process request
  | BusinessUpdateHandler => BusinessUpdateHandler_process request
  | BusinessUpdateHandlerV2 => BusinessUpdateHandlerV2_process handle request
  | AuditUpdateHandler => AuditUpdateHandler_process request
  | MessageUpdateHandler => MessageUpdateHandler_process request
  end.

(** [handler.handle(request)] for the handlers of this module. *)
Definition Handler_handle : nat → HandlerRef → Request → Async unit :=
  handle successor process.

(** ** Strategies *)

(** application/startegies/dataproduct.strategy.v1 *)
Module DataProductStrategyV1.
Record t := mk {
  validateCreate : HandlerRef;
  businessCreate : HandlerRef;
  auditCreate : HandlerRef;
  validateUpdate : HandlerRef;
  businessUpdate : HandlerRef;
  auditUpdate : HandlerRef;
  messageUpdate : HandlerRef }.

Definition create (fuel : nat) (this : t) (dto : DataProductDto.t)
    : Async DataProductDto.t :=
  let! h := setNext (validateCreate this) (businessCreate this) in
  setNext h (auditCreate this) ;;
  Handler_handle fuel (validateCreate this) (Some dto) ;;
  ret dto.

Definition update (fuel : nat) (this : t) (i : string)
    (dto : DataProductDto.t) : Async DataProductDto.t :=
  let dto := DataProductDto.set_id i dto in
  let! h := setNext (validateUpdate this) (businessUpdate this) in
  let! h := setNext h (auditUpdate this) in
  setNext h (messageUpdate this) ;;
  Handler_handle fuel (validateUpdate this) (Some dto) ;;
  ret dto.
End DataProductStrategyV1.

(** application/startegies/dataproduct.strategy.v2 *)
Module DataProductStrategyV2.
Record t := mk {
  v1 : DataProductStrategyV1.t;
  validateUpdate : HandlerRef;
  businessUpdateV2 : HandlerRef;
  auditUpdate : HandlerRef;
  messageUpdate : HandlerRef }.

Definition create (fuel : nat) (this : t) (dto : DataProductDto.t)
    : Async DataProductDto.t :=
  DataProductStrategyV1.create fuel (v1 this) dto.

Definition update (fuel : nat) (this : t) (i : string)
    (dto : DataProductDto.t) : Async DataProductDto.t :=
  let dto := DataProductDto.set_id i dto in
  let! h := setNext (validateUpdate this) (businessUpdateV2 this) in
  let! h := setNext h (auditUpdate this) in
  setNext h (messageUpdate this) ;;
  Handler_handle fuel (validateUpdate this) (Some dto) ;;
  ret dto.
End DataProductStrategyV2.

(** The abstract class [DataProductStrategy] with its two implementations. *)
Inductive DataProductStrategy :=
| StrategyV1 (s : DataProductStrategyV1.t)
| StrategyV2 (s : DataProductStrategyV2.t).

Definition Strategy_create (fuel : nat) (s : DataProductStrategy)
    : DataProductDto.t → Async DataProductDto.t :=
  match s with
  | StrategyV1 s => DataProductStrategyV1.create fuel s
  | StrategyV2 s => DataProductStrategyV2.create fuel s
  end.

Definition Strategy_update (fuel : nat) (s : DataProductStrategy)
    : string → DataProductDto.t → Async DataProductDto.t :=
  match s with
  | StrategyV1 s => DataProductStrategyV1.update fuel s
  | StrategyV2 s => DataProductStrategyV2.update fuel s
  end.

(** ** The strategy factory (application/factories/data-product.factory) *)
Module DataProductStrategyFactory.
Record t := mk {
  v1 : DataProductStrategyV1.t;
  v2 : DataProductStrategyV2.t }.

(** [getStrategy] is synchronous: it returns a strategy or throws. *)
Definition getStrategy (this : t) (version : string)
    : Exception + DataProductStrategy :=
  if String.eqb version "v1" then inr (StrategyV1 (v1 this))
  else if String.eqb version "v2" then inr (StrategyV2 (v2 this))
  else inl (Error ("Unsupported API version: " +:+ version)).
End DataProductStrategyFactory.

(** ** The controller (presentation/controllers/dataproduct.controller) *)
Module DataProductController.
(** The [version] query parameter defaults to v1 when it is absent. *)
Definition create (fuel : nat) (f : DataProductStrategyFactory.t)
    (dto : DataProductDto.t) (v : option string)
    : Async DataProductDto.t :=
  match DataProductStrategyFactory.getStrategy f (default "v1" v) with
  | inr s => Strategy_create fuel s dto
  | inl e => throw e
  end.

Definition update (fuel : nat) (f : DataProductStrategyFactory.t)
    (i : string) (dto : DataProductDto.t) (v : option string)
    : Async DataProductDto.t :=
  match DataProductStrategyFactory.getStrategy f (default "v1" v) with
  | inr s => Strategy_update fuel s i dto
  | inl e => throw e
  end.
End DataProductController.

(** ** Wiring: the injected singletons and the state at start-up *)

Definition strategyV1 : DataProductStrategyV1.t :=
  DataProductStrategyV1.mk
    ValidateCreateHandler BusinessCreateHandler AuditCreateHandler
    ValidateUpdateHandler BusinessUpdateHandler AuditUpdateHandler
    MessageUpdateHandler.

Definition strategyV2 : DataProductStrategyV2.t :=
  DataProductStrategyV2.mk strategyV1
    ValidateUpdateHandler BusinessUpdateHandlerV2 AuditUpdateHandler
    MessageUpdateHandler.

Definition strategyFactory : DataProductStrategyFactory.t :=
  DataProductStrategyFactory.mk strategyV1 strategyV2.

Definition boot : World := mkWorld ∅ 0 0 (λ _, None) [].

(** A store that holds one document, as after a create at start-up. *)
Definition stored (e : DataProductEntity.t) : World :=
  mkWorld {[ DataProductEntity._id e := e ]} 1 1 (λ _, None) [].

(** The store holds a document with identifier [i]. *)
Definition holds (w : World) (i : string) : Prop :=
  ∃ e, collection w !! i = Some e ∧ DataProductEntity._id e = i.



(** ** Sample data of the end-to-end scenarios *)

Definition catalogA : DataProductEntity.t :=
  DataProductEntity.mk "0" "Catalog A" (Some "first") "INACTIVE" 0 0.

(** The body [{name: "Renamed"}], with the [infoport] that the update
    validation asks for. *)
Definition renamed : DataProductDto.t :=
  DataProductDto.mk None (Some "Renamed") (Some "port") None None None None.

(** The body [{description: "new text"}]: the name is absent. *)
Definition described : DataProductDto.t :=
  DataProductDto.mk None None None (Some "new text") None None None.

(** A create request in which the client sets the identifier and both
    timestamps itself. *)
Definition clientStamped : DataProductDto.t :=
  DataProductDto.mk (Some "client-1") (Some "Catalog A") (Some "port") None
    None (Some 5) (Some 7).

(** An update request without identifier, and one whose name is shorter
    than three characters once trimmed. *)
Definition withoutId : DataProductDto.t :=
  DataProductDto.mk None (Some "Catalog A") (Some "port") None None None None.

Definition shortName : DataProductDto.t :=
  DataProductDto.mk (Some "0") (Some " a ") (Some "port") None None None None.

(** ** Observations on outcomes and on the store *)

(** The state in which a call ended, or in which it was still running. *)
Definition state_of {W A} (r : Result W A) : W :=
  match r with
  | Ok _ w | Throw _ w | OutOfFuel w => w
  end.

(** Every document is stored under its own identifier, and every
    identifier in use has been handed out by the store. *)
Definition well_formed (w : World) : Prop :=
  ∀ i e, collection w !! i = Some e →
         DataProductEntity._id e = i ∧ ∃ n, n < oids w ∧ i = pretty n.

(** ** The mapper of the application layer
    (application/mappers/dataproduct.mapper) *)

(** Modelled from the spec: the entity class [DataProduct]
    (entities/dataproduct.entity) is not among the sources. Its constructor
    takes the identifier, the name and the infoport, the three fields that
    [toDto] reads back. *)
Module DataProduct.
Record t := mk {
  id : string;
  name : option string;
  infoport : option string }.
End DataProduct.

Module ApplicationMapper.
(** [new DataProduct(dto.id ?? '', dto.name, dto.infoport)] *)
Definition toDomain (dto : DataProductDto.t) : DataProduct.t :=
  DataProduct.mk
    (default "" (DataProductDto.id dto))
    (DataProductDto.name dto)
    (DataProductDto.infoport dto).

Definition toDto (entity : DataProduct.t) : DataProductDto.t :=
  DataProductDto.mk
    (Some (DataProduct.id entity))
    (DataProduct.name entity)
    (DataProduct.infoport entity)
    None None None None.
End ApplicationMapper.

(** ** The reference implementation printed in the README

    The README of the repository carries a second, complete implementation
    of the update pipeline: a repository that raises on unknown
    identifiers, a validation of identifier and name, a v2 business step
    that keeps the name immutable, strategies that re-read the record, and
    a factory over a map. Its handlers take the request itself, never
    [null]. The exceptions of the framework ([BadRequestException],
    [NotFoundException]) are [Error] objects; their message is kept. *)
Module Readme.

Inductive HandlerRef :=
| ValidateUpdateHandler
| BusinessUpdateV1Handler
| BusinessUpdateV2Handler
| AuditUpdateHandler
| MessageUpdateHandler.

#[global] Instance HandlerRef_eq_dec : EqDecision HandlerRef.
Proof. solve_decision. Defined.

(** The documents, and the [next] fields of the five handler objects. *)
Record State := mkState {
  docs : World;
  next : HandlerRef → option HandlerRef }.

(** A call on the Mongoose model, which only sees the documents. *)
Definition lift {A} (m : M World A) : M State A :=
  λ s, match m (docs s) with
       | Ok a w => Ok a (mkState w (next s))
       | Throw e w => Throw e (mkState w (next s))
       | OutOfFuel w => OutOfFuel (mkState w (next s))
       end.

Definition setNext (this handler : HandlerRef) : M State HandlerRef :=
  λ s, Ok handler (mkState (docs s) (<[this := Some handler]> (next s))).

(** Modelled from the spec: [runValidators] makes the model check the
    update before it is applied; as in [DataProductModel.create], the
    status must be one of the two values of the enumeration. *)
Definition valid_update (doc : DataProductEntity.partial) : bool :=
  match DataProductEntity.p_status doc with
  | None => true
  | Some st => bool_decide (st = "ACTIVE") || bool_decide (st = "INACTIVE")
  end.

(** infra/mongoose/data-product.mongoose.repository *)
Module MongooseDataProductRepository.
Definition create (dto : DataProductDto.t) : M State DataProductDto.t :=
  let! created :=
    lift (DataProductModel.create (DataProductMapper.toEntity dto)) in
  ret (DataProductMapper.toDto created).

(** The identifier is a string by type; [None] is the [undefined] that a
    request without identifier passes at run time. *)
Definition findById (i : option string) : M State (option DataProductDto.t) :=
  match i with
  | None => ret None
  | Some i =>
      let! found := lift (DataProductModel.findById i) in
      ret (match found with
           | Some e => Some (DataProductMapper.toDto e)
           | None => None
           end)
  end.

Definition update (i : option string) (dto : DataProductDto.t)
    : M State DataProductDto.t :=
  let doc := DataProductMapper.toEntity dto in
  if valid_update doc then
    let! updated := lift (DataProductModel.findByIdAndUpdate i doc) in
    match updated with
    | None =>
        throw (Error ("DataProduct " +:+ default "undefined" i
                        +:+ " not found"))
    | Some e => ret (DataProductMapper.toDto e)
    end
  else throw (Error "Validation failed: status").

Definition delete (i : string) : M State unit :=
  let! res := lift (DataProductModel.findByIdAndDelete i) in
  match res with
  | None => throw (Error ("DataProduct " +:+ i +:+ " not found"))
  | Some _ => ret tt
  end.
End MongooseDataProductRepository.

(** handlers/update/validate-update.handler *)
Definition ValidateUpdateHandler_process (dto : DataProductDto.t)
    : M State unit :=
  if falsy (DataProductDto.id dto)
  then throw (Error "id is required for update")
  else if negb (falsy (DataProductDto.name dto)) &&
          (String.length (trim (default "" (DataProductDto.name dto))) <? 3)
  then throw (Error "name must be at least 3 characters")
  else ret tt.

(** handlers/update/business-update.v1.handler *)
Definition BusinessUpdateV1Handler_process (dto : DataProductDto.t)
    : M State unit :=
  MongooseDataProductRepository.update (DataProductDto.id dto) dto ;;
  ret tt.

(** A field of [{ ...current, ...dto }]: the request's when it has one. *)
Definition spread {A} (current dto : option A) : option A :=
  match dto with
  | Some v => Some v
  | None => current
  end.

(** [{ ...current, ...dto, name: current.name }] *)
Definition merged (current dto : DataProductDto.t) : DataProductDto.t :=
  DataProductDto.mk
    (spread (DataProductDto.id current) (DataProductDto.id dto))
    (DataProductDto.name current)
    (spread (DataProductDto.infoport current) (DataProductDto.infoport dto))
    (spread (DataProductDto.description current)
       (DataProductDto.description dto))
    (spread (DataProductDto.status current) (DataProductDto.status dto))
    (spread (DataProductDto.createdAt current) (DataProductDto.createdAt dto))
    (spread (DataProductDto.updatedAt current) (DataProductDto.updatedAt dto)).

(** handlers/update/business-update.v2.handler *)
Definition BusinessUpdateV2Handler_process (dto : DataProductDto.t)
    : M State unit :=
  let! current := MongooseDataProductRepository.findById
                    (DataProductDto.id dto) in
  match current with
  | None => throw (Error "Cannot update non-existent DataProduct")
  | Some current =>
      if negb (falsy (DataProductDto.name dto)) &&
         negb (bool_decide
                 (DataProductDto.name dto = DataProductDto.name current))
      then throw (Error "name is immutable in v2")
      else
        MongooseDataProductRepository.update (DataProductDto.id dto)
          (merged current dto) ;;
        ret tt
  end.

(** The audit and the message handler of the README have empty bodies. *)
Definition AuditUpdateHandler_process (dto : DataProductDto.t)
    : M State unit := ret tt.

Definition MessageUpdateHandler_process (dto : DataProductDto.t)
    : M State unit := ret tt.

Definition process (handle : HandlerRef → DataProductDto.t → M State unit)
    (this : HandlerRef) (dto : DataProductDto.t) : M State unit :=
  match this with
  | ValidateUpdateHandler => ValidateUpdateHandler_process dto
  | BusinessUpdateV1Handler => BusinessUpdateV1Handler_process dto
  | BusinessUpdateV2Handler => BusinessUpdateV2Handler_process dto
  | AuditUpdateHandler => AuditUpdateHandler_process dto
  | MessageUpdateHandler => MessageUpdateHandler_process dto
  end.

Definition Handler_handle
    : nat → HandlerRef → DataProductDto.t → M State unit :=
  handle next process.

(** strategies/data-product.strategy.v1 *)
Module DataProductStrategyV1.
Definition create (dto : DataProductDto.t) : M State DataProductDto.t :=
  MongooseDataProductRepository.create dto.

Definition get (i : string) : M State (option DataProductDto.t) :=
  MongooseDataProductRepository.findById (Some i).

Definition update (fuel : nat) (i : string) (dto : DataProductDto.t)
    : M State (option DataProductDto.t) :=
  let dto := DataProductDto.set_id i dto in
  let! h := setNext ValidateUpdateHandler BusinessUpdateV1Handler in
  let! h := setNext h AuditUpdateHandler in
  setNext h MessageUpdateHandler ;;
  Handler_handle fuel ValidateUpdateHandler dto ;;
  MongooseDataProductRepository.findById (Some i).

Definition delete (i : string) : M State unit :=
  MongooseDataProductRepository.delete i.
End DataProductStrategyV1.

(** strategies/data-product.strategy.v2 *)
Module DataProductStrategyV2.
Definition create (dto : DataProductDto.t) : M State DataProductDto.t :=
  DataProductStrategyV1.create dto.

Definition get (i : string) : M State (option DataProductDto.t) :=
  DataProductStrategyV1.get i.

Definition update (fuel : nat) (i : string) (dto : DataProductDto.t)
    : M State (option DataProductDto.t) :=
  let dto := DataProductDto.set_id i dto in
  let! h := setNext ValidateUpdateHandler BusinessUpdateV2Handler in
  let! h := setNext h AuditUpdateHandler in
  setNext h MessageUpdateHandler ;;
  Handler_handle fuel ValidateUpdateHandler dto ;;
  DataProductStrategyV1.get i.

Definition delete (i : string) : M State unit :=
  DataProductStrategyV1.delete i.
End DataProductStrategyV2.

(** strategies/data-product.strategy.factory: a map from version tokens
    to the two strategy objects, filled by the constructor. *)
Inductive Strategy := StrategyV1 | StrategyV2.

Module DataProductStrategyFactory.
Definition new (v1 v2 : Strategy) : gmap string Strategy :=
  <["v2" := v2]> (<["v1" := v1]> ∅).

(** [strategies.get(version ?? 'v1') ?? strategies.get('v1')] *)
Definition get (strategies : gmap string Strategy) (version : option string)
    : option Strategy :=
  match strategies !! default "v1" version with
  | Some s => Some s
  | None => strategies !! "v1"
  end.
End DataProductStrategyFactory.

(** The state with the given documents and no handler wired. *)
Definition boot (w : World) : State := mkState w (λ _, None).

End Readme.




(** The last handler of either chain has no successor. *)
Definition tails_idle (w : World) : Prop :=
  successor w MessageUpdateHandler = None ∧
  successor w AuditCreateHandler = None.

(* ===================================================================== *)
(** * Part II: theorems *)
(* ===================================================================== *)

(** ** The abstract handler *)

Section HandlerFacts.
Context {H T W : Type}.
Variable next : W → H → option H.
Variable process : (H → T → M W unit) → H → T → M W unit.

Local Abbreviation handle := (handle next process).
Local Abbreviation run_in_order := (run_in_order process).
Local Abbreviation linked := (linked next).
Local Abbreviation plain := (plain process).
Local Abbreviation keeps_links := (keeps_links next process).

(** One call of [handle]: [process] first; the successor, read after
    [process] has returned, only when [process] succeeded. *)
Lemma handle_step fuel this request w :
  handle (S fuel) this request w =
    match process (handle fuel) this request w with
    | Ok _ w' =>
        match next w' this with
        | Some h => handle fuel h request w'
        | None => Ok tt w'
        end
    | Throw e w' => Throw e w'
    | OutOfFuel w' => OutOfFuel w'
    end.
Proof.
  simpl. unfold bind, get.
  destruct (process (handle fuel) this request w) as [a w'|e w'|w']; auto.
  destruct (next w' this); reflexivity.
Qed.

Lemma linked_ext w w' h rest :
  (∀ h', next w' h' = next w h') → linked w h rest → linked w' h rest.
Proof.
  intros Hsame. revert h.
  induction rest as [|h' rest IH]; intros h; simpl.
  - rewrite Hsame. auto.
  - rewrite Hsame. intros [Hn Hl]. split; [exact Hn | apply IH, Hl].
Qed.

Lemma run_in_order_app inner before after request w :
  run_in_order inner (before ++ after) request w =
    match run_in_order inner before request w with
    | Ok _ w' => run_in_order inner after request w'
    | Throw e w' => Throw e w'
    | OutOfFuel w' => OutOfFuel w'
    end.
Proof.
  revert w. induction before as [|b before IH]; intros w; simpl.
  - reflexivity.
  - unfold bind. destruct (process inner b request w); auto.
Qed.

(** A failing stage ends the run in the state it left: the stages after
    it contribute nothing. *)
Lemma run_in_order_halts inner before failing after request w a e w1 w2 :
  run_in_order inner before request w = Ok a w1 →
  process inner failing request w1 = Throw e w2 →
  run_in_order inner (before ++ failing :: after) request w = Throw e w2.
Proof.
  intros Hbefore Hfail. rewrite run_in_order_app, Hbefore. simpl.
  unfold bind. rewrite Hfail. reflexivity.
Qed.

(** [handle] on the head of a chain is the in-order run of the chain. *)
Lemma handle_refines_run_in_order inner request rest :
  ∀ h w fuel,
    linked w h rest →
    Forall plain (h :: rest) →
    Forall keeps_links (h :: rest) →
    length (h :: rest) ≤ fuel →
    handle fuel h request w = run_in_order inner (h :: rest) request w.
Proof.
  induction rest as [|h' rest IH]; intros h w fuel Hl Hp Hk Hfuel;
    (destruct fuel as [|fuel]; [simpl in Hfuel; lia|]);
    rewrite handle_step; simpl; unfold bind;
    rewrite (Forall_inv Hp (handle fuel) inner request w);
    destruct (process inner h request w) as [[] w'| |] eqn:Hproc; auto;
    rewrite (Forall_inv Hk inner request w tt w' Hproc h).
  - simpl in Hl. rewrite Hl. reflexivity.
  - destruct Hl as [Hn Hl]. rewrite Hn.
    apply IH.
    + eapply linked_ext; [|exact Hl].
      apply (Forall_inv Hk inner request w tt w' Hproc).
    + exact (Forall_inv_tail Hp).
    + exact (Forall_inv_tail Hk).
    + simpl in *. lia.
Qed.

(** C4. For every handler and every context, [handle] executes the
    handler's [process] and then, only if [process] succeeded, [handle] of
    the linked successor, returning at once when no successor is linked;
    when [process] raises, [handle] ends with that error in the very state
    that [process] left. Hence, on every chain linked from [h], [handle]
    runs the stages in the order of the links, and when the [process] of a
    stage raises, no later stage has run and the error reaches the caller
    of the chain. *)
Theorem handle_halts_at_first_failure :
  (∀ fuel this request w,
     handle (S fuel) this request w =
       match process (handle fuel) this request w with
       | Ok _ w' =>
           match next w' this with
           | Some successor => handle fuel successor request w'
           | None => Ok tt w'
           end
       | Throw e w' => Throw e w'
       | OutOfFuel w' => OutOfFuel w'
       end) ∧
  (∀ inner request h rest w fuel,
     linked w h rest →
     Forall plain (h :: rest) →
     Forall keeps_links (h :: rest) →
     length (h :: rest) ≤ fuel →
     handle fuel h request w = run_in_order inner (h :: rest) request w ∧
     ∀ before failing after a e w1 w2,
       h :: rest = before ++ failing :: after →
       run_in_order inner before request w = Ok a w1 →
       process inner failing request w1 = Throw e w2 →
       handle fuel h request w = Throw e w2).
Proof.
  split; [exact handle_step|].
  intros inner request h rest w fuel Hl Hp Hk Hfuel.
  pose proof (handle_refines_run_in_order inner request rest h w fuel
                Hl Hp Hk Hfuel) as Href.
  split; [exact Href|].
  intros before failing after a e w1 w2 Hsplit Hbefore Hfail.
  rewrite Href, Hsplit.
  eapply run_in_order_halts; eauto.
Qed.
End HandlerFacts.

(** The test double: with B failing in the chain A, B, C, the log holds A
    and B, and C was never invoked. *)
Lemma recorder_plain failing s : plain (recorder_process failing) s.
Proof. intros inner inner' request w. reflexivity. Qed.

Lemma recorder_keeps_links failing s :
  keeps_links recorder_next (recorder_process failing) s.
Proof. intros inner request w a w' _ h'. reflexivity. Qed.

Lemma recorder_chain_halts_at_B :
  handle recorder_next (recorder_process (Some StageB)) 3 StageA tt [] =
    Throw (Error "stage failed") [StageA; StageB].
Proof.
  refine (proj2 (proj2 (handle_halts_at_first_failure recorder_next
                          (recorder_process (Some StageB)))
                   (λ _ _ w, OutOfFuel w) tt
                   StageA [StageB; StageC] [] 3 _ _ _ _)
            [StageA] StageB [StageC] tt (Error "stage failed")
            [StageA] [StageA; StageB] _ _ _).
  - simpl. auto.
  - repeat constructor; apply recorder_plain.
  - repeat constructor; apply recorder_keeps_links.
  - simpl. lia.
  - reflexivity.
  - reflexivity.
  - reflexivity.
Defined.

Example recorder_chain_all_succeed :
  handle recorder_next (recorder_process None) 3 StageA tt [] =
    Ok tt [StageA; StageB; StageC].
Proof. reflexivity. Qed.

(** ** The repository *)

Lemma Repository_update_found i dto w e :
  collection w !! i = Some e →
  DataProductRepository.update (Some i) dto w =
    let e' := DataProductModel.merge e (DataProductMapper.toEntity dto)
                (clock w) in
    Ok (Some (DataProductMapper.toDto e'))
       (set_collection (<[i := e']> (collection w)) (S (clock w)) w).
Proof.
  intros Hfound.
  unfold DataProductRepository.update, DataProductModel.findByIdAndUpdate,
    bind, ret.
  rewrite Hfound. reflexivity.
Qed.

Lemma Repository_update_missing i dto w :
  collection w !! i = None →
  DataProductRepository.update (Some i) dto w = Ok None w.
Proof.
  intros Hmissing.
  unfold DataProductRepository.update, DataProductModel.findByIdAndUpdate,
    bind, ret.
  rewrite Hmissing. reflexivity.
Qed.

Lemma Repository_update_undefined dto w :
  DataProductRepository.update None dto w = Ok None w.
Proof. reflexivity. Qed.

(** Whatever the store holds, the repository's [update] fulfils: it never
    rejects, and it leaves links and console alone. *)
Lemma Repository_update_fulfils i dto w :
  ∃ r w', DataProductRepository.update i dto w = Ok r w' ∧
          successor w' = successor w ∧ console w' = console w.
Proof.
  destruct i as [i|]; [|by eexists _, _].
  destruct (collection w !! i) as [e|] eqn:Hlook.
  - rewrite (Repository_update_found _ _ _ _ Hlook). by eexists _, _.
  - rewrite (Repository_update_missing _ _ _ Hlook). by eexists _, _.
Qed.

(** ** The concrete handlers *)

Lemma process_plain h : h ≠ BusinessUpdateHandlerV2 → plain process h.
Proof. intros Hne inner inner' request w. by destruct h. Qed.

Lemma process_keeps_links h :
  h ≠ BusinessUpdateHandlerV2 → keeps_links successor process h.
Proof.
  intros Hne inner request w a w' Hproc h'.
  destruct h; try done; simpl in Hproc.
  - unfold ValidateCreateHandler_process, deref, bind, ret, throw in Hproc.
    destruct request as [dto|]; [|done].
    destruct (DataProductDto.name dto); [|done].
    destruct (_ <? _); [done|]. by inversion Hproc.
  - by inversion Hproc.
  - by inversion Hproc.
  - unfold ValidateUpdateHandler_process, deref, bind, ret, throw in Hproc.
    destruct request as [dto|]; [|done].
    destruct (_ || _); [done|]. by inversion Hproc.
  - unfold BusinessUpdateHandler_process, deref, bind in Hproc.
    destruct request as [dto|]; [|done]. simpl in Hproc.
    destruct (Repository_update_fulfils (DataProductDto.id dto) dto w)
      as (r & w1 & Hupd & Hsucc & _).
    rewrite Hupd in Hproc. inversion Hproc; subst. by rewrite Hsucc.
  - by inversion Hproc.
  - by inversion Hproc.
Qed.


(** The v2 business step: every call of [handle] on it is still running
    when the budget is used up, whatever the budget; meanwhile the document
    has been overwritten with the fields of the request, and neither the
    links nor the console have been touched. *)
Lemma BusinessUpdateHandlerV2_spins fuel :
  ∀ dto i w,
    DataProductDto.id dto = Some i →
    holds w i →
    ∃ w', Handler_handle fuel BusinessUpdateHandlerV2 (Some dto) w
            = OutOfFuel w' ∧
          holds w' i ∧
          console w' = console w ∧
          successor w' = successor w ∧
          (0 < fuel → ∀ n, DataProductDto.name dto = Some n →
             DataProductEntity.name <$> collection w' !! i = Some n).
Proof.
  induction fuel as [|fuel IH]; intros dto i w Hid Hholds.
  - exists w. repeat split; auto. lia.
  - destruct Hholds as (e & Hlook & He).
    unfold Handler_handle. rewrite handle_step. simpl process.
    unfold BusinessUpdateHandlerV2_process, deref, bind at 1, ret.
    unfold bind at 1. rewrite Hid, (Repository_update_found _ _ _ _ Hlook).
    cbv zeta.
    set (e' := DataProductModel.merge e _ _).
    set (w1 := set_collection _ _ w).
    assert (holds w1 i) as Hholds1.
    { exists e'. split; [apply lookup_insert_eq | exact He]. }
    destruct (IH (DataProductMapper.toDto e') i w1) as
      (w' & Hrun & Hholds' & Hconsole & Hsucc & Hname); auto.
    { simpl. by rewrite He. }
    fold Handler_handle. rewrite Hrun.
    exists w'. repeat split; auto.
    intros _ n Hn.
    destruct fuel as [|fuel].
    + simpl in Hrun. inversion Hrun; subst w'.
      subst w1. simpl. rewrite lookup_insert_eq. simpl.
      subst e'. simpl. by rewrite Hn.
    + apply Hname; [lia|]. subst e'. simpl. by rewrite Hn.
Qed.

(** On no request and in no state does [handle] on the v2 business step
    succeed or raise an [Error]: it is still running when the budget is
    used up, or it has ended with the runtime's TypeError on [null]. *)
Lemma BusinessUpdateHandlerV2_never_succeeds fuel :
  ∀ request w,
    (∃ w', Handler_handle fuel BusinessUpdateHandlerV2 request w
             = OutOfFuel w') ∨
    (∃ m w', Handler_handle fuel BusinessUpdateHandlerV2 request w
               = Throw (TypeError m) w').
Proof.
  induction fuel as [|fuel IH]; intros request w; [left; by exists w|].
  unfold Handler_handle. rewrite handle_step. simpl process.
  unfold BusinessUpdateHandlerV2_process, deref.
  destruct request as [dto|]; [|right; by eexists _, _].
  unfold bind at 1, ret. unfold bind.
  destruct (Repository_update_fulfils (DataProductDto.id dto) dto w)
    as (r & w1 & Hupd & _).
  rewrite Hupd. fold Handler_handle.
  destruct (IH r w1) as [(w' & Hrun)|(m & w' & Hrun)]; rewrite Hrun.
  - left. by exists w'.
  - right. by exists m, w'.
Qed.

(** C9. When the store holds the document that the request names, so that
    the repository's [update] resolves with a record, the [process] of the
    v2 business handler persists the update and then calls the inherited
    [handle] on itself with the returned record; its own [process] runs
    again before any successor is read, and a call of [handle] on this
    handler is still running after any number of steps: it never returns,
    never raises, and never reaches a successor. *)
Theorem BusinessUpdateHandlerV2_handle_never_returns fuel dto i w :
  DataProductDto.id dto = Some i →
  holds w i →
  (∃ updated w1,
     DataProductRepository.update (DataProductDto.id dto) dto w
       = Ok (Some updated) w1 ∧
     ∀ inner,
       process inner BusinessUpdateHandlerV2 (Some dto) w
         = inner BusinessUpdateHandlerV2 (Some updated) w1) ∧
  ∃ w', Handler_handle fuel BusinessUpdateHandlerV2 (Some dto) w
          = OutOfFuel w' ∧
        console w' = console w ∧
        successor w' = successor w.
Proof.
  intros Hid Hholds. split.
  - destruct Hholds as (e & Hlook & _). rewrite Hid.
    eexists _, _. split; [apply (Repository_update_found _ _ _ _ Hlook)|].
    intros inner. simpl.
    unfold BusinessUpdateHandlerV2_process, deref, bind at 1, ret.
    unfold bind. rewrite Hid, (Repository_update_found _ _ _ _ Hlook).
    reflexivity.
  - destruct (BusinessUpdateHandlerV2_spins fuel dto i w Hid Hholds)
      as (w' & Hrun & _ & Hconsole & Hsucc & _).
    by exists w'.
Qed.

Lemma BusinessUpdateHandlerV2_handle_never_returns_witness :
  ∃ w', Handler_handle 64 BusinessUpdateHandlerV2
          (Some (DataProductDto.set_id "0" renamed)) (stored catalogA)
          = OutOfFuel w' ∧
        console w' = [] ∧
        successor w' = successor (stored catalogA).
Proof.
  refine (proj2 (BusinessUpdateHandlerV2_handle_never_returns 64
                   (DataProductDto.set_id "0" renamed) "0" (stored catalogA)
                   _ _)).
  - reflexivity.
  - exists catalogA. split; reflexivity.
Defined.

(** C1. On the stored record "Catalog A", the request that renames it
    makes the v2 business handler overwrite the stored name: no validation
    error is raised, the call never returns, and the repository has
    changed; the v1 handler succeeds on the same request. On the request
    that leaves the name out, the v1 handler succeeds and the v2 handler
    does not. *)
Theorem BusinessUpdateHandlerV2_overwrites_name fuel :
  (∃ w2, Handler_handle (S fuel) BusinessUpdateHandlerV2
           (Some (DataProductDto.set_id "0" renamed)) (stored catalogA)
           = OutOfFuel w2 ∧
         DataProductEntity.name <$> collection w2 !! "0" = Some "Renamed") ∧
  (∃ w1, Handler_handle (S fuel) BusinessUpdateHandler
           (Some (DataProductDto.set_id "0" renamed)) (stored catalogA)
           = Ok tt w1 ∧
         DataProductEntity.name <$> collection w1 !! "0" = Some "Renamed") ∧
  (∃ w1, Handler_handle (S fuel) BusinessUpdateHandler
           (Some (DataProductDto.set_id "0" described)) (stored catalogA)
           = Ok tt w1 ∧
         DataProductEntity.name <$> collection w1 !! "0" = Some "Catalog A") ∧
  (∃ w2, Handler_handle (S fuel) BusinessUpdateHandlerV2
           (Some (DataProductDto.set_id "0" described)) (stored catalogA)
           = OutOfFuel w2).
Proof.
  assert (holds (stored catalogA) "0") as Hholds.
  { exists catalogA. split; reflexivity. }
  repeat split.
  - destruct (BusinessUpdateHandlerV2_spins (S fuel)
                (DataProductDto.set_id "0" renamed) "0" (stored catalogA))
      as (w2 & Hrun & _ & _ & _ & Hname); [reflexivity | exact Hholds |].
    exists w2. split; [exact Hrun|]. apply Hname; [lia | reflexivity].
  - unfold Handler_handle. rewrite handle_step.
    eexists. split; [vm_compute; reflexivity|]. vm_compute. reflexivity.
  - unfold Handler_handle. rewrite handle_step.
    eexists. split; [vm_compute; reflexivity|]. vm_compute. reflexivity.
  - destruct (BusinessUpdateHandlerV2_spins (S fuel)
                (DataProductDto.set_id "0" described) "0" (stored catalogA))
      as (w2 & Hrun & _); [reflexivity | exact Hholds |].
    by exists w2.
Qed.

(** ** The strategies *)

Lemma StrategyV1_update_result fuel this i dto w r w' :
  DataProductStrategyV1.update fuel this i dto w = Ok r w' →
  r = DataProductDto.set_id i dto.
Proof.
  unfold DataProductStrategyV1.update, bind, setNext, ret.
  destruct (Handler_handle _ _ _ _); [|done..]. by inversion 1.
Qed.

Lemma StrategyV2_update_result fuel this i dto w r w' :
  DataProductStrategyV2.update fuel this i dto w = Ok r w' →
  r = DataProductDto.set_id i dto.
Proof.
  unfold DataProductStrategyV2.update, bind, setNext, ret.
  destruct (Handler_handle _ _ _ _); [|done..]. by inversion 1.
Qed.

Lemma StrategyV1_create_result fuel this dto w r w' :
  DataProductStrategyV1.create fuel this dto w = Ok r w' → r = dto.
Proof.
  unfold DataProductStrategyV1.create, bind, setNext, ret.
  destruct (Handler_handle _ _ _ _); [|done..]. by inversion 1.
Qed.


(** C2. On the stored record "Catalog A", [update] of v1 with the renaming
    request stamps the identifier, runs validate, business, audit and
    message, and returns the request object itself, which differs from the
    record that the repository holds afterwards (status and timestamps are
    missing from it). *)
Theorem StrategyV1_update_returns_request :
  ∃ w',
    DataProductStrategyV1.update 4 strategyV1 "0" renamed (stored catalogA)
      = Ok (DataProductDto.set_id "0" renamed) w' ∧
    console w' =
      [("Audit log:", Some (DataProductDto.set_id "0" renamed));
       ("Message published:", Some (DataProductDto.set_id "0" renamed))] ∧
    DataProductRepository.findById "0" w' =
      Ok (Some (DataProductDto.mk (Some "0") (Some "Renamed") None
                  (Some "first") (Some "ACTIVE") (Some 0) (Some 1))) w' ∧
    DataProductDto.set_id "0" renamed ≠
      DataProductDto.mk (Some "0") (Some "Renamed") None
        (Some "first") (Some "ACTIVE") (Some 0) (Some 1).
Proof.
  eexists. split; [vm_compute; reflexivity|].
  split; [reflexivity|]. split; [vm_compute; reflexivity|]. discriminate.
Qed.

(** C6. [create] of v1 on a valid request in which the client sets the
    identifier and the timestamps returns that very request: identifier and
    timestamps are the client's, and nothing has been stored. *)
Theorem StrategyV1_create_returns_client_fields :
  ∃ w',
    DataProductStrategyV1.create 3 strategyV1 clientStamped boot
      = Ok clientStamped w' ∧
    collection w' = ∅ ∧
    console w' = [("Audit log:", Some clientStamped)] ∧
    DataProductDto.id clientStamped = Some "client-1" ∧
    DataProductDto.createdAt clientStamped = Some 5 ∧
    DataProductDto.updatedAt clientStamped = Some 7.
Proof.
  eexists. split; [vm_compute; reflexivity|]. by repeat split.
Qed.

(** The repository's own [create] is what assigns these fields: it drops
    the identifier and the timestamps of the request. *)
Lemma Repository_create_assigns dto w r w' :
  DataProductRepository.create dto w = Ok r w' →
  DataProductDto.id r = Some (pretty (oids w)) ∧
  DataProductDto.createdAt r = Some (clock w) ∧
  DataProductDto.updatedAt r = Some (clock w) ∧
  collection w' !! pretty (oids w) ≠ None.
Proof.
  unfold DataProductRepository.create, DataProductModel.create, bind, ret.
  destruct (DataProductEntity.p_name _); [|done].
  destruct (_ || _); [|done].
  inversion 1; subst; simpl. by rewrite lookup_insert_eq.
Qed.

(** C8. [create] of v2 is [create] of the v1 strategy it holds, for every
    request and in every state; with the injected singletons, the factory's
    v2 strategy creates exactly as its v1 strategy does. *)
Theorem StrategyV2_create_delegates fuel this dto w :
  DataProductStrategyV2.create fuel this dto w =
    DataProductStrategyV1.create fuel (DataProductStrategyV2.v1 this) dto w ∧
  Strategy_create fuel (StrategyV2 strategyV2) dto w =
    Strategy_create fuel (StrategyV1 strategyV1) dto w.
Proof. split; reflexivity. Qed.

(** ** The factory *)

(** C3. The factory resolves "v1" to its v1 strategy and "v2" to its v2
    strategy, two distinct strategies, and for every other version token it
    throws the error "Unsupported API version" naming the token: there is
    no default strategy. *)
Theorem getStrategy_resolves f version :
  version ≠ "v1" →
  version ≠ "v2" →
  DataProductStrategyFactory.getStrategy f "v1"
    = inr (StrategyV1 (DataProductStrategyFactory.v1 f)) ∧
  DataProductStrategyFactory.getStrategy f "v2"
    = inr (StrategyV2 (DataProductStrategyFactory.v2 f)) ∧
  DataProductStrategyFactory.getStrategy f "v1"
    ≠ DataProductStrategyFactory.getStrategy f "v2" ∧
  DataProductStrategyFactory.getStrategy f version
    = inl (Error ("Unsupported API version: " +:+ version)).
Proof.
  intros Hv1 Hv2. repeat split; [done|].
  unfold DataProductStrategyFactory.getStrategy.
  apply String.eqb_neq in Hv1, Hv2. by rewrite Hv1, Hv2.
Qed.

Lemma getStrategy_resolves_witness :
  DataProductStrategyFactory.getStrategy strategyFactory "v1"
    = inr (StrategyV1 strategyV1) ∧
  DataProductStrategyFactory.getStrategy strategyFactory "v2"
    = inr (StrategyV2 strategyV2) ∧
  DataProductStrategyFactory.getStrategy strategyFactory "v1"
    ≠ DataProductStrategyFactory.getStrategy strategyFactory "v2" ∧
  DataProductStrategyFactory.getStrategy strategyFactory "v3"
    = inl (Error "Unsupported API version: v3").
Proof.
  apply (getStrategy_resolves strategyFactory "v3"); discriminate.
Defined.

(** The controller passes the factory's error on: a request for an
    unsupported version reaches no strategy. *)
Lemma Controller_update_unsupported fuel i dto w :
  DataProductController.update fuel strategyFactory i dto (Some "v3") w
    = Throw (Error "Unsupported API version: v3") w.
Proof. reflexivity. Qed.

(** ** Unknown identifiers *)

Lemma Repository_delete_missing i w :
  collection w !! i = None →
  DataProductRepository.delete i w = Ok tt w.
Proof.
  intros Hmissing.
  unfold DataProductRepository.delete, DataProductModel.findByIdAndDelete,
    bind, ret, set_collection.
  rewrite delete_id by done. by destruct w.
Qed.

(** C5. With the identifier "42" absent from the store, the repository's
    [update] resolves with [null] and its [delete] resolves, neither raises
    an error; [update] of v1 then runs the audit and the message stage and
    returns normally, and [update] of v2 ends with the runtime's TypeError
    on the [null] record. *)
Theorem unknown_identifier_raises_no_NotFound :
  DataProductRepository.update (Some "42") renamed boot = Ok None boot ∧
  DataProductRepository.delete "42" boot = Ok tt boot ∧
  (∃ w',
     DataProductStrategyV1.update 4 strategyV1 "42" renamed boot
       = Ok (DataProductDto.set_id "42" renamed) w' ∧
     console w' =
       [("Audit log:", Some (DataProductDto.set_id "42" renamed));
        ("Message published:", Some (DataProductDto.set_id "42" renamed))]) ∧
  (∃ w',
     DataProductStrategyV2.update 4 strategyV2 "42" renamed boot
       = Throw (TypeError "Cannot read properties of null (reading 'id')") w' ∧
     console w' = []).
Proof.
  split; [by apply Repository_update_missing|].
  split; [by apply Repository_delete_missing|].
  split; eexists; (split; [vm_compute; reflexivity | reflexivity]).
Qed.

(** ** The validation of updates *)

(** What the handler checks: it raises exactly when the name or the
    infoport is missing or empty, and it leaves the state as it found it,
    so it never reaches the repository. *)
Lemma ValidateUpdateHandler_checks inner dto w :
  process inner ValidateUpdateHandler (Some dto) w =
    if falsy (DataProductDto.name dto) || falsy (DataProductDto.infoport dto)
    then Throw (Error "Validation failed") w
    else Ok tt w.
Proof.
  simpl. unfold ValidateUpdateHandler_process, deref, bind, ret, throw.
  by destruct (_ || _).
Qed.

(** C7. The update validation lets through a request that has no
    identifier, and one whose trimmed name has a single character; in both
    cases without touching the state. *)
Theorem ValidateUpdateHandler_accepts_missing_id inner w :
  process inner ValidateUpdateHandler (Some withoutId) w = Ok tt w ∧
  DataProductDto.id withoutId = None ∧
  process inner ValidateUpdateHandler (Some shortName) w = Ok tt w ∧
  String.length (trim " a ") = 1.
Proof. by rewrite !ValidateUpdateHandler_checks. Qed.

(** ** Audit and message stages *)

(** C10. For every request, also [null], the [process] of the create
    audit handler and of the update message handler fulfil: each appends
    its line to the console and changes nothing else, so [handle] on them
    always goes on to the successor, or returns when there is none. *)
Theorem audit_and_message_never_raise inner fuel request w :
  (∃ w', process inner AuditCreateHandler request w = Ok tt w' ∧
         console w' = console w ++ [("Audit log:", request)] ∧
         collection w' = collection w ∧
         successor w' = successor w ∧
         Handler_handle (S fuel) AuditCreateHandler request w =
           match successor w AuditCreateHandler with
           | Some h => Handler_handle fuel h request w'
           | None => Ok tt w'
           end) ∧
  (∃ w', process inner MessageUpdateHandler request w = Ok tt w' ∧
         console w' = console w ++ [("Message published:", request)] ∧
         collection w' = collection w ∧
         successor w' = successor w ∧
         Handler_handle (S fuel) MessageUpdateHandler request w =
           match successor w MessageUpdateHandler with
           | Some h => Handler_handle fuel h request w'
           | None => Ok tt w'
           end).
Proof.
  split; eexists; repeat split; unfold Handler_handle; by rewrite handle_step.
Qed.

(* ===================================================================== *)
(** * Part III: further properties of the sources *)
(* ===================================================================== *)

(** ** Wiring of handlers *)

(** X1. [setNext] returns its argument and replaces the successor of the
    receiver: of two calls on the same handler the second one wins; no
    other handler's link, no document and no console line is touched. *)
Theorem setNext_last_write_wins this a b w :
  ∃ w', (setNext this a ;; setNext this b) w = Ok b w' ∧
        successor w' this = Some b ∧
        (∀ h, h ≠ this → successor w' h = successor w h) ∧
        collection w' = collection w ∧
        oids w' = oids w ∧
        clock w' = clock w ∧
        console w' = console w.
Proof.
  eexists. split; [reflexivity|]. simpl. split; [apply fn_lookup_insert|].
  split; [|done]. intros h Hne. by rewrite !fn_lookup_insert_ne.
Qed.

Section SelfLink.
Context {H T W : Type}.
Variable next : W → H → option H.
Variable process : (H → T → M W unit) → H → T → M W unit.

(** X2. [handle] has no guard against cycles: on a handler that is its own
    successor and whose [process] fulfils without rewiring it, [handle] is
    still running after any number of steps. *)
Theorem handle_on_self_link_never_returns (h : H) (request : T) :
  (∀ inner w, next w h = Some h →
     ∃ w', process inner h request w = Ok tt w' ∧ next w' h = Some h) →
  ∀ fuel w, next w h = Some h →
    ∃ w', handle next process fuel h request w = OutOfFuel w'.
Proof.
  intros Hproc fuel. induction fuel as [|fuel IH]; intros w Hself.
  - by exists w.
  - rewrite handle_step.
    destruct (Hproc (handle next process fuel) w Hself) as (w1 & -> & Hself1).
    rewrite Hself1. by apply IH.
Qed.
End SelfLink.

Lemma handle_on_self_link_never_returns_witness :
  ∃ w', (setNext AuditCreateHandler AuditCreateHandler ;;
         Handler_handle 32 AuditCreateHandler (Some renamed)) boot
          = OutOfFuel w'.
Proof.
  unfold bind, setNext.
  apply (handle_on_self_link_never_returns successor process
           AuditCreateHandler (Some renamed)).
  - intros inner w Hself. eexists. split; [reflexivity|exact Hself].
  - reflexivity.
Defined.

(** ** The update pipeline of the sources *)


(** X3. A request whose name or infoport is missing or empty is rejected
    by [update] of either version with the error "Validation failed",
    before any document, the clock or the console is touched. *)
Theorem update_rejects_before_repository fuel i dto w :
  falsy (DataProductDto.name dto) || falsy (DataProductDto.infoport dto)
    = true →
  0 < fuel →
  ∃ w1 w2,
    DataProductStrategyV1.update fuel strategyV1 i dto w
      = Throw (Error "Validation failed") w1 ∧
    DataProductStrategyV2.update fuel strategyV2 i dto w
      = Throw (Error "Validation failed") w2 ∧
    collection w1 = collection w ∧ clock w1 = clock w ∧
    console w1 = console w ∧
    collection w2 = collection w ∧ clock w2 = clock w ∧
    console w2 = console w.
Proof.
  intros Hfalsy Hfuel. destruct fuel as [|fuel]; [lia|].
  unfold DataProductStrategyV1.update, DataProductStrategyV2.update.
  unfold bind, setNext, Handler_handle. rewrite !handle_step.
  change (DataProductStrategyV1.validateUpdate strategyV1)
    with ValidateUpdateHandler.
  change (DataProductStrategyV2.validateUpdate strategyV2)
    with ValidateUpdateHandler.
  rewrite !ValidateUpdateHandler_checks. simpl DataProductDto.name.
  simpl DataProductDto.infoport. rewrite Hfalsy.
  by eexists _, _.
Qed.

Lemma update_rejects_before_repository_witness :
  ∃ w1 w2,
    DataProductStrategyV1.update 4 strategyV1 "0" described (stored catalogA)
      = Throw (Error "Validation failed") w1 ∧
    DataProductStrategyV2.update 4 strategyV2 "0" described (stored catalogA)
      = Throw (Error "Validation failed") w2 ∧
    collection w1 = collection (stored catalogA) ∧
    clock w1 = clock (stored catalogA) ∧
    console w1 = console (stored catalogA) ∧
    collection w2 = collection (stored catalogA) ∧
    clock w2 = clock (stored catalogA) ∧
    console w2 = console (stored catalogA).
Proof.
  apply (update_rejects_before_repository 4 "0" described (stored catalogA)).
  - reflexivity.
  - lia.
Defined.




(** X5. [update] of v2 never returns a record, on no request, in no state
    and with no step budget, neither called directly nor through the
    controller: it ends with an error or it is still running. *)
Theorem StrategyV2_update_never_returns_record fuel i dto w r w' :
  DataProductStrategyV2.update fuel strategyV2 i dto w ≠ Ok r w' ∧
  DataProductController.update fuel strategyFactory i dto (Some "v2") w
    ≠ Ok r w'.
Proof.
  assert (DataProductStrategyV2.update fuel strategyV2 i dto w ≠ Ok r w')
    as Hnever; [|by split].
  unfold DataProductStrategyV2.update, bind, setNext, Handler_handle.
  destruct fuel as [|fuel]; [done|].
  rewrite handle_step.
  change (DataProductStrategyV2.validateUpdate strategyV2)
    with ValidateUpdateHandler.
  rewrite ValidateUpdateHandler_checks.
  destruct (_ || _); [done|].
  change (successor _ ValidateUpdateHandler) with (Some BusinessUpdateHandlerV2).
  cbv beta iota.
  match goal with
  | |- context [handle successor process fuel BusinessUpdateHandlerV2 ?q ?s] =>
      destruct (BusinessUpdateHandlerV2_never_succeeds fuel q s)
        as [(w2 & Hrun)|(m & w2 & Hrun)];
      unfold Handler_handle in Hrun; rewrite Hrun
  end; done.
Qed.



(** ** The create pipeline of the sources *)

Lemma ValidateCreateHandler_pure request w :
  ValidateCreateHandler_process request w = Ok tt w ∨
  ∃ e, ValidateCreateHandler_process request w = Throw e w.
Proof.
  unfold ValidateCreateHandler_process, deref, bind, ret, throw.
  destruct request as [dto|]; [|right; by eexists].
  destruct (DataProductDto.name dto); [|right; by eexists].
  destruct (_ <? _); [right; by eexists | by left].
Qed.

(** X7. [create] of v1 stores nothing: whatever the request and however
    the call ends, the documents, the identifiers handed out and the clock
    are as before. When it returns, the result is the request itself and
    exactly one audit line has been written; when it raises, the console is
    untouched. (The validation step is the one modelled from the spec.) *)
Theorem StrategyV1_create_stores_nothing fuel dto w :
  successor w AuditCreateHandler = None →
  3 ≤ fuel →
  let outcome := DataProductStrategyV1.create fuel strategyV1 dto w in
  collection (state_of outcome) = collection w ∧
  oids (state_of outcome) = oids w ∧
  clock (state_of outcome) = clock w ∧
  (∀ r w', outcome = Ok r w' →
     r = dto ∧ console w' = console w ++ [("Audit log:", Some dto)]) ∧
  (∀ e w', outcome = Throw e w' → console w' = console w) ∧
  (∀ w', outcome ≠ OutOfFuel w').
Proof.
  intros Hlast Hfuel. cbv zeta.
  assert ((∃ w', DataProductStrategyV1.create fuel strategyV1 dto w
                   = Ok dto w' ∧
                 collection w' = collection w ∧ oids w' = oids w ∧
                 clock w' = clock w ∧
                 console w' = console w ++ [("Audit log:", Some dto)]) ∨
          (∃ e w', DataProductStrategyV1.create fuel strategyV1 dto w
                     = Throw e w' ∧
                   collection w' = collection w ∧ oids w' = oids w ∧
                   clock w' = clock w ∧ console w' = console w)) as Hcases.
  { unfold DataProductStrategyV1.create, bind, setNext, Handler_handle.
    cbn [strategyV1 DataProductStrategyV1.validateCreate
           DataProductStrategyV1.businessCreate
           DataProductStrategyV1.auditCreate].
    rewrite (handle_refines_run_in_order successor process
               (λ _ _ w, OutOfFuel w) (Some dto)
               [BusinessCreateHandler; AuditCreateHandler]).
    - unfold run_in_order, bind. cbn [process].
      match goal with
      | |- context [ValidateCreateHandler_process ?q ?s] =>
          destruct (ValidateCreateHandler_pure q s) as [Hok|(e & Hthrow)]
      end.
      + rewrite Hok. left. by eexists.
      + rewrite Hthrow. right. by eexists _, _.
    - simpl. split_and!; [done | done | exact Hlast].
    - repeat constructor; by apply process_plain.
    - repeat constructor; by apply process_keeps_links.
    - simpl. lia. }
  destruct Hcases as [(w1 & -> & Hc & Ho & Ht & Hk)|(e & w1 & -> & Hc & Ho & Ht & Hk)];
    simpl; split_and!; try done.
  - intros r w' Heq. by inversion Heq; subst.
  - intros e' w' Heq. by inversion Heq; subst.
Qed.

Lemma StrategyV1_create_stores_nothing_witness :
  let outcome := DataProductStrategyV1.create 3 strategyV1 clientStamped boot in
  collection (state_of outcome) = collection boot ∧
  oids (state_of outcome) = oids boot ∧
  clock (state_of outcome) = clock boot ∧
  (∀ r w', outcome = Ok r w' →
     r = clientStamped ∧
     console w' = console boot ++ [("Audit log:", Some clientStamped)]) ∧
  (∀ e w', outcome = Throw e w' → console w' = console boot) ∧
  (∀ w', outcome ≠ OutOfFuel w').
Proof.
  apply (StrategyV1_create_stores_nothing 3 clientStamped boot);
    [reflexivity | lia].
Defined.

(** ** The repository *)

Lemma well_formed_boot : well_formed boot.
Proof.
  intros i e Hlook.
  change (collection boot) with (∅ : gmap string DataProductEntity.t) in Hlook.
  by rewrite lookup_empty in Hlook.
Qed.

Lemma Repository_update_keeps_well_formed i dto w :
  well_formed w →
  well_formed (state_of (DataProductRepository.update i dto w)).
Proof.
  intros Hwf. destruct i as [i|]; [|done].
  destruct (collection w !! i) as [old|] eqn:Hold.
  - rewrite (Repository_update_found _ _ _ _ Hold). simpl.
    intros j e. simpl. rewrite lookup_insert.
    case_decide as Hj.
    + intros [= <-]. subst j. simpl. exact (Hwf i old Hold).
    + apply Hwf.
  - by rewrite (Repository_update_missing _ _ _ Hold).
Qed.

(** X8. The repository keeps the store well formed: after [create],
    [update] and [delete], however they end, every document is still
    stored under its own identifier and every identifier in use has been
    handed out by the store; [findById] changes nothing. *)
Theorem Repository_keeps_well_formed w :
  well_formed w →
  (∀ dto, well_formed (state_of (DataProductRepository.create dto w))) ∧
  (∀ i dto, well_formed (state_of (DataProductRepository.update i dto w))) ∧
  (∀ i, well_formed (state_of (DataProductRepository.delete i w))) ∧
  (∀ i, state_of (DataProductRepository.findById i w) = w).
Proof.
  intros Hwf. split_and!.
  - intros dto.
    unfold DataProductRepository.create, DataProductModel.create, bind, ret.
    destruct (DataProductEntity.p_name _); [|done].
    destruct (_ || _); [|done]. simpl.
    intros i e. simpl. rewrite lookup_insert.
    case_decide as Hi.
    + intros [= <-]. subst i. split; [done|]. exists (oids w). split; [lia|done].
    + intros Hlook. destruct (Hwf i e Hlook) as (Hid & n & Hn & ->).
      split; [done|]. exists n. split; [lia|done].
  - intros i dto. by apply Repository_update_keeps_well_formed.
  - intros i. simpl. intros j e. simpl. rewrite lookup_delete.
    case_decide; [done|]. apply Hwf.
  - done.
Qed.

Lemma Repository_keeps_well_formed_witness :
  (∀ dto, well_formed (state_of (DataProductRepository.create dto boot))) ∧
  (∀ i dto,
     well_formed (state_of (DataProductRepository.update i dto boot))) ∧
  (∀ i, well_formed (state_of (DataProductRepository.delete i boot))) ∧
  (∀ i, state_of (DataProductRepository.findById i boot) = boot).
Proof. exact (Repository_keeps_well_formed boot well_formed_boot). Defined.

(** X9. In a well-formed store, the record that [create] returns carries
    an identifier that no document had before, the name of the request and
    the store's clock as both timestamps, whatever identifier and
    timestamps the request carried; [findById] of that identifier returns
    the same record, and all other documents are as before. *)
Theorem Repository_create_then_findById dto w r w' :
  well_formed w →
  DataProductRepository.create dto w = Ok r w' →
  ∃ i, DataProductDto.id r = Some i ∧
       collection w !! i = None ∧
       DataProductRepository.findById i w' = Ok (Some r) w' ∧
       DataProductDto.name r = DataProductDto.name dto ∧
       DataProductDto.createdAt r = Some (clock w) ∧
       DataProductDto.updatedAt r = Some (clock w) ∧
       ∀ j, j ≠ i → collection w' !! j = collection w !! j.
Proof.
  intros Hwf.
  unfold DataProductRepository.create, DataProductModel.create, bind, ret.
  simpl DataProductEntity.p_name.
  destruct (DataProductDto.name dto) as [n|] eqn:Hn; [|done].
  destruct (_ || _); [|done].
  intros [= <- <-]. exists (pretty (oids w)). simpl. split_and!; try done.
  - destruct (collection w !! pretty (oids w)) as [e|] eqn:Hlook; [|done].
    destruct (Hwf _ _ Hlook) as (_ & k & Hk & Heq).
    apply (inj pretty) in Heq. lia.
  - unfold DataProductRepository.findById, DataProductModel.findById, bind, ret.
    simpl. by rewrite lookup_insert_eq.
  - intros j Hj. by rewrite lookup_insert_ne.
Qed.

Lemma Repository_create_then_findById_witness :
  ∃ i, DataProductDto.id
         (DataProductDto.mk (Some "0") (Some "Catalog A") None None
            (Some "ACTIVE") (Some 0) (Some 0)) = Some i ∧
       collection boot !! i = None ∧
       DataProductRepository.findById i
         (mkWorld {[ "0" := DataProductEntity.mk "0" "Catalog A" None
                              "ACTIVE" 0 0 ]} 1 1 (λ _, None) [])
         = Ok (Some (DataProductDto.mk (Some "0") (Some "Catalog A") None None
                       (Some "ACTIVE") (Some 0) (Some 0)))
              (mkWorld {[ "0" := DataProductEntity.mk "0" "Catalog A" None
                                   "ACTIVE" 0 0 ]} 1 1 (λ _, None) []) ∧
       DataProductDto.name
         (DataProductDto.mk (Some "0") (Some "Catalog A") None None
            (Some "ACTIVE") (Some 0) (Some 0))
         = DataProductDto.name clientStamped ∧
       DataProductDto.createdAt
         (DataProductDto.mk (Some "0") (Some "Catalog A") None None
            (Some "ACTIVE") (Some 0) (Some 0)) = Some (clock boot) ∧
       DataProductDto.updatedAt
         (DataProductDto.mk (Some "0") (Some "Catalog A") None None
            (Some "ACTIVE") (Some 0) (Some 0)) = Some (clock boot) ∧
       ∀ j, j ≠ i →
         collection
           (mkWorld {[ "0" := DataProductEntity.mk "0" "Catalog A" None
                                "ACTIVE" 0 0 ]} 1 1 (λ _, None) []) !! j
         = collection boot !! j.
Proof.
  apply (Repository_create_then_findById clientStamped boot).
  - exact well_formed_boot.
  - vm_compute. reflexivity.
Defined.

(** X10. When the store holds a document under the identifier, [update]
    resolves with the new record and [findById] then returns that record.
    The name and the description of the request overwrite the stored ones
    when present and keep them when absent; the status becomes the status
    of the request, or ACTIVE when the request has none; identifier and
    creation date are kept and the update date is the store's clock. No
    other document changes. *)
Theorem Repository_update_then_findById i dto w e :
  collection w !! i = Some e →
  DataProductEntity._id e = i →
  ∃ r w',
    DataProductRepository.update (Some i) dto w = Ok (Some r) w' ∧
    DataProductRepository.findById i w' = Ok (Some r) w' ∧
    DataProductDto.id r = Some i ∧
    DataProductDto.name r =
      Some (default (DataProductEntity.name e) (DataProductDto.name dto)) ∧
    DataProductDto.description r =
      match DataProductDto.description dto with
      | Some d => Some d
      | None => DataProductEntity.description e
      end ∧
    DataProductDto.status r =
      Some (default "ACTIVE" (DataProductDto.status dto)) ∧
    DataProductDto.createdAt r = Some (DataProductEntity.createdAt e) ∧
    DataProductDto.updatedAt r = Some (clock w) ∧
    ∀ j, j ≠ i → collection w' !! j = collection w !! j.
Proof.
  intros Hlook Hid.
  eexists _, _. split; [apply (Repository_update_found _ _ _ _ Hlook)|].
  cbv zeta. split_and!; try done.
  - unfold DataProductRepository.findById, DataProductModel.findById, bind, ret.
    simpl. by rewrite lookup_insert_eq.
  - simpl. by rewrite Hid.
  - intros j Hj. simpl. by rewrite lookup_insert_ne.
Qed.

Lemma Repository_update_then_findById_witness :
  ∃ r w',
    DataProductRepository.update (Some "0") described (stored catalogA)
      = Ok (Some r) w' ∧
    DataProductRepository.findById "0" w' = Ok (Some r) w' ∧
    DataProductDto.id r = Some "0" ∧
    DataProductDto.name r =
      Some (default (DataProductEntity.name catalogA)
              (DataProductDto.name described)) ∧
    DataProductDto.description r =
      match DataProductDto.description described with
      | Some d => Some d
      | None => DataProductEntity.description catalogA
      end ∧
    DataProductDto.status r =
      Some (default "ACTIVE" (DataProductDto.status described)) ∧
    DataProductDto.createdAt r = Some (DataProductEntity.createdAt catalogA) ∧
    DataProductDto.updatedAt r = Some (clock (stored catalogA)) ∧
    ∀ j, j ≠ "0" →
      collection w' !! j = collection (stored catalogA) !! j.
Proof.
  apply (Repository_update_then_findById "0" described (stored catalogA)
           catalogA); reflexivity.
Defined.

(** X11. [delete] always resolves, also for an identifier that no document
    has. Afterwards [findById] of the identifier returns [null], [update]
    of it resolves with [null], a second [delete] changes nothing, and all
    other documents are as before. *)
Theorem Repository_delete_then_findById i w :
  ∃ w',
    DataProductRepository.delete i w = Ok tt w' ∧
    DataProductRepository.findById i w' = Ok None w' ∧
    (∀ dto, DataProductRepository.update (Some i) dto w' = Ok None w') ∧
    DataProductRepository.delete i w' = Ok tt w' ∧
    ∀ j, j ≠ i → collection w' !! j = collection w !! j.
Proof.
  eexists. split; [reflexivity|].
  assert (collection (set_collection (delete i (collection w)) (clock w) w)
            !! i = None) as Hgone by apply lookup_delete_eq.
  split_and!.
  - unfold DataProductRepository.findById, DataProductModel.findById, bind, ret.
    by rewrite Hgone.
  - intros dto. by apply Repository_update_missing.
  - by apply Repository_delete_missing.
  - intros j Hj. simpl. by rewrite lookup_delete_ne.
Qed.

(** ** The mapper of the application layer *)

(** X12. Mapping an entity to a request and back gives the entity again.
    Mapping a request to an entity and back keeps name and infoport, turns
    a missing identifier into the empty string and drops every other
    field; it gives the request again exactly when the request has an
    identifier and carries no description, status or timestamps. *)
Theorem ApplicationMapper_round_trip entity dto :
  ApplicationMapper.toDomain (ApplicationMapper.toDto entity) = entity ∧
  ApplicationMapper.toDto (ApplicationMapper.toDomain dto) =
    DataProductDto.mk (Some (default "" (DataProductDto.id dto)))
      (DataProductDto.name dto) (DataProductDto.infoport dto)
      None None None None ∧
  (ApplicationMapper.toDto (ApplicationMapper.toDomain dto) = dto ↔
     is_Some (DataProductDto.id dto) ∧
     DataProductDto.description dto = None ∧
     DataProductDto.status dto = None ∧
     DataProductDto.createdAt dto = None ∧
     DataProductDto.updatedAt dto = None).
Proof.
  split_and!.
  - by destruct entity.
  - done.
  - destruct dto as [i n p d s c u].
    unfold ApplicationMapper.toDto, ApplicationMapper.toDomain. simpl. split.
    + intros [= Hi <- <- <- <-]. split_and!; try done.
      all: destruct i; [by eexists|done].
    + intros ([i' ->] & -> & -> & -> & ->). done.
Qed.

(** ** The controller *)

(** X13. The controller routes by the version parameter: without one it
    calls the v1 strategy; for a token other than "v1" and "v2" both of its
    operations raise "Unsupported API version" with the token and leave the
    state as it was; and with the injected strategies a create for "v2" is
    the create for "v1". *)
Theorem Controller_routes_by_version fuel f i dto v w :
  v ≠ "v1" →
  v ≠ "v2" →
  DataProductController.create fuel f dto None w
    = DataProductStrategyV1.create fuel (DataProductStrategyFactory.v1 f)
        dto w ∧
  DataProductController.update fuel f i dto None w
    = DataProductStrategyV1.update fuel (DataProductStrategyFactory.v1 f)
        i dto w ∧
  DataProductController.update fuel f i dto (Some "v2") w
    = DataProductStrategyV2.update fuel (DataProductStrategyFactory.v2 f)
        i dto w ∧
  DataProductController.create fuel strategyFactory dto (Some "v2") w
    = DataProductController.create fuel strategyFactory dto (Some "v1") w ∧
  DataProductController.create fuel f dto (Some v) w
    = Throw (Error ("Unsupported API version: " +:+ v)) w ∧
  DataProductController.update fuel f i dto (Some v) w
    = Throw (Error ("Unsupported API version: " +:+ v)) w.
Proof.
  intros Hv1 Hv2. split_and!; try done.
  all: unfold DataProductController.create, DataProductController.update,
         DataProductStrategyFactory.getStrategy; simpl;
       apply String.eqb_neq in Hv1, Hv2; by rewrite Hv1, Hv2.
Qed.

Lemma Controller_routes_by_version_witness :
  DataProductController.create 3 strategyFactory renamed None boot
    = DataProductStrategyV1.create 3 strategyV1 renamed boot ∧
  DataProductController.update 3 strategyFactory "0" renamed None boot
    = DataProductStrategyV1.update 3 strategyV1 "0" renamed boot ∧
  DataProductController.update 3 strategyFactory "0" renamed (Some "v2") boot
    = DataProductStrategyV2.update 3 strategyV2 "0" renamed boot ∧
  DataProductController.create 3 strategyFactory renamed (Some "v2") boot
    = DataProductController.create 3 strategyFactory renamed (Some "v1") boot ∧
  DataProductController.create 3 strategyFactory renamed (Some "V1") boot
    = Throw (Error "Unsupported API version: V1") boot ∧
  DataProductController.update 3 strategyFactory "0" renamed (Some "V1") boot
    = Throw (Error "Unsupported API version: V1") boot.
Proof.
  apply (Controller_routes_by_version 3 strategyFactory "0" renamed "V1" boot);
    discriminate.
Defined.

(** ** The reference implementation of the README *)





Lemma Readme_validate_checks dto s :
  Readme.ValidateUpdateHandler_process dto s =
    if falsy (DataProductDto.id dto)
    then Throw (Error "id is required for update") s
    else if negb (falsy (DataProductDto.name dto)) &&
            (String.length (trim (default "" (DataProductDto.name dto))) <? 3)
    then Throw (Error "name must be at least 3 characters") s
    else Ok tt s.
Proof.
  unfold Readme.ValidateUpdateHandler_process.
  destruct (falsy _); [done|]. by destruct (_ && _).
Qed.

(** X14. The README's factory never fails: it resolves "v1" and "v2" to
    the strategies it was built with, and an absent token as well as every
    other token to the v1 strategy. *)
Theorem Readme_factory_falls_back_to_v1 v1 v2 version :
  version ≠ "v1" →
  version ≠ "v2" →
  let factory := Readme.DataProductStrategyFactory.new v1 v2 in
  Readme.DataProductStrategyFactory.get factory (Some "v1") = Some v1 ∧
  Readme.DataProductStrategyFactory.get factory (Some "v2") = Some v2 ∧
  Readme.DataProductStrategyFactory.get factory None = Some v1 ∧
  Readme.DataProductStrategyFactory.get factory (Some version) = Some v1.
Proof.
  intros Hv1 Hv2. cbv zeta.
  unfold Readme.DataProductStrategyFactory.get,
    Readme.DataProductStrategyFactory.new. simpl default.
  assert ((<["v2":=v2]> (<["v1":=v1]> ∅) : gmap string Readme.Strategy)
            !! "v1" = Some v1) as Hlook1.
  { rewrite lookup_insert_ne by done. apply lookup_insert_eq. }
  rewrite Hlook1, lookup_insert_eq.
  split_and!; try done.
  rewrite !lookup_insert_ne, lookup_empty by done. done.
Qed.

Lemma Readme_factory_falls_back_to_v1_witness :
  let factory :=
    Readme.DataProductStrategyFactory.new Readme.StrategyV1 Readme.StrategyV2
  in
  Readme.DataProductStrategyFactory.get factory (Some "v1")
    = Some Readme.StrategyV1 ∧
  Readme.DataProductStrategyFactory.get factory (Some "v2")
    = Some Readme.StrategyV2 ∧
  Readme.DataProductStrategyFactory.get factory None
    = Some Readme.StrategyV1 ∧
  Readme.DataProductStrategyFactory.get factory (Some "v3")
    = Some Readme.StrategyV1.
Proof.
  apply (Readme_factory_falls_back_to_v1 Readme.StrategyV1 Readme.StrategyV2
           "v3"); discriminate.
Defined.

Lemma falsy_Some_false (i : string) : i ≠ "" → falsy (Some i) = false.
Proof. by destruct i. Qed.






(** X15. The README's update validation comes first: with an empty
    identifier both versions raise "id is required for update", and with a
    name that is not empty but shorter than three characters once trimmed
    both raise "name must be at least 3 characters"; in either case the
    documents are untouched. *)
Theorem Readme_update_validates_first fuel i dto s :
  0 < fuel →
  (i = "" ∨
   (∃ n, DataProductDto.name dto = Some n ∧ n ≠ "" ∧
         String.length (trim n) < 3)) →
  ∃ message s1 s2,
    message = (if bool_decide (i = "")
               then "id is required for update"
               else "name must be at least 3 characters") ∧
    Readme.DataProductStrategyV1.update fuel i dto s
      = Throw (Error message) s1 ∧
    Readme.DataProductStrategyV2.update fuel i dto s
      = Throw (Error message) s2 ∧
    Readme.docs s1 = Readme.docs s ∧
    Readme.docs s2 = Readme.docs s.
Proof.
  intros Hfuel Hbad. destruct fuel as [|fuel]; [lia|].
  unfold Readme.DataProductStrategyV1.update,
    Readme.DataProductStrategyV2.update, bind, Readme.setNext,
    Readme.Handler_handle.
  rewrite !handle_step. cbn [Readme.process].
  rewrite !Readme_validate_checks.
  simpl DataProductDto.id. simpl DataProductDto.name.
  case_bool_decide as Hi.
  - subst i. simpl. by eexists _, _, _.
  - destruct Hbad as [?|(n & Hn & Hne & Hshort)]; [done|].
    rewrite (falsy_Some_false i Hi), Hn, (falsy_Some_false n Hne).
    simpl default. apply Nat.ltb_lt in Hshort. rewrite Hshort. simpl.
    by eexists _, _, _.
Qed.

Lemma Readme_update_validates_first_witness :
  ∃ message s1 s2,
    message = (if bool_decide ("0" = "")
               then "id is required for update"
               else "name must be at least 3 characters") ∧
    Readme.DataProductStrategyV1.update 4 "0" shortName
      (Readme.boot (stored catalogA)) = Throw (Error message) s1 ∧
    Readme.DataProductStrategyV2.update 4 "0" shortName
      (Readme.boot (stored catalogA)) = Throw (Error message) s2 ∧
    Readme.docs s1 = Readme.docs (Readme.boot (stored catalogA)) ∧
    Readme.docs s2 = Readme.docs (Readme.boot (stored catalogA)).
Proof.
  apply (Readme_update_validates_first 4 "0" shortName
           (Readme.boot (stored catalogA))).
  - lia.
  - right. exists " a ". split; [reflexivity|]. split; [discriminate|].
    vm_compute. lia.
Defined.







(** ** Invariants of the running service *)

Lemma process_keeps_store_and_links inner h request w :
  (∀ request' w0, well_formed w0 →
     well_formed (state_of (inner BusinessUpdateHandlerV2 request' w0)) ∧
     successor (state_of (inner BusinessUpdateHandlerV2 request' w0))
       = successor w0) →
  well_formed w →
  well_formed (state_of (process inner h request w)) ∧
  successor (state_of (process inner h request w)) = successor w.
Proof.
  intros Hinner Hwf. destruct h; simpl.
  - by destruct (ValidateCreateHandler_pure request w) as [-> | (e & ->)].
  - done.
  - done.
  - unfold ValidateUpdateHandler_process, deref, bind, ret, throw.
    destruct request as [dto|]; [|done]. by destruct (_ || _).
  - unfold BusinessUpdateHandler_process, deref, bind, ret, throw.
    destruct request as [dto|]; [|done]. simpl.
    pose proof (Repository_update_keeps_well_formed
                  (DataProductDto.id dto) dto w Hwf) as Hwf'.
    destruct (Repository_update_fulfils (DataProductDto.id dto) dto w)
      as (r & w1 & Hupd & Hsucc & _).
    rewrite Hupd in Hwf' |- *. done.
  - unfold BusinessUpdateHandlerV2_process, deref, bind, ret, throw.
    destruct request as [dto|]; [|done]. simpl.
    pose proof (Repository_update_keeps_well_formed
                  (DataProductDto.id dto) dto w Hwf) as Hwf'.
    destruct (Repository_update_fulfils (DataProductDto.id dto) dto w)
      as (r & w1 & Hupd & Hsucc & _).
    rewrite Hupd in Hwf' |- *. simpl in Hwf'.
    destruct (Hinner r w1 Hwf') as [Hwf2 Hsucc2].
    cbv beta iota. split; [exact Hwf2 | by rewrite Hsucc2].
  - done.
  - done.
Qed.

Lemma Handler_handle_keeps_store_and_links fuel :
  ∀ h request w,
    well_formed w →
    well_formed (state_of (Handler_handle fuel h request w)) ∧
    successor (state_of (Handler_handle fuel h request w)) = successor w.
Proof.
  induction fuel as [|fuel IH]; intros h request w Hwf; [done|].
  unfold Handler_handle. rewrite handle_step.
  destruct (process_keeps_store_and_links (handle successor process fuel)
              h request w (λ r w0 H0, IH _ r w0 H0) Hwf) as [Hwf1 Hsucc1].
  destruct (process (handle successor process fuel) h request w)
    as [[] w1|e w1|w1]; simpl in *; [|done..].
  destruct (successor w1 h) as [h'|]; [|done].
  destruct (IH h' request w1 Hwf1) as [Hwf2 Hsucc2].
  unfold Handler_handle in Hwf2, Hsucc2.
  split; [exact Hwf2 | by rewrite Hsucc2].
Qed.

Lemma tails_idle_after_handle fuel h request w0 w :
  well_formed w →
  collection w0 = collection w →
  oids w0 = oids w →
  successor w0 MessageUpdateHandler = None →
  successor w0 AuditCreateHandler = None →
  ∀ A (a : A),
    well_formed
      (state_of ((Handler_handle fuel h request ;; ret a) w0)) ∧
    tails_idle
      (state_of ((Handler_handle fuel h request ;; ret a) w0)).
Proof.
  intros Hwf Hcoll Hoids Hmessage Haudit A a.
  assert (well_formed w0) as Hwf0.
  { intros j e. rewrite Hcoll, Hoids. apply Hwf. }
  destruct (Handler_handle_keeps_store_and_links fuel h request w0 Hwf0)
    as [Hwf1 Hsucc1].
  unfold bind, ret.
  destruct (Handler_handle fuel h request w0); simpl in *;
    (split; [done|]); unfold tails_idle; by rewrite Hsucc1.
Qed.

Lemma strategies_keep_invariants fuel i dto w :
  well_formed w →
  tails_idle w →
  (well_formed
     (state_of (DataProductStrategyV1.create fuel strategyV1 dto w)) ∧
   tails_idle
     (state_of (DataProductStrategyV1.create fuel strategyV1 dto w))) ∧
  (well_formed
     (state_of (DataProductStrategyV1.update fuel strategyV1 i dto w)) ∧
   tails_idle
     (state_of (DataProductStrategyV1.update fuel strategyV1 i dto w))) ∧
  (well_formed
     (state_of (DataProductStrategyV2.update fuel strategyV2 i dto w)) ∧
   tails_idle
     (state_of (DataProductStrategyV2.update fuel strategyV2 i dto w))).
Proof.
  intros Hwf [Hmessage Haudit].
  unfold DataProductStrategyV1.create, DataProductStrategyV1.update,
    DataProductStrategyV2.update.
  unfold bind at 1 2 5 6 7 10 11 12, setNext.
  split_and!; apply (tails_idle_after_handle _ _ _ _ w); try done.
Qed.

(** X19. Every operation of the controller on the injected strategies,
    for every version token and however it ends, keeps the store well
    formed and leaves the message handler and the create audit handler,
    the last handlers of the two chains, without successor. Both hold at
    start-up, so they hold in every state the service reaches. *)
Theorem Controller_keeps_invariants fuel i dto v w :
  well_formed w →
  tails_idle w →
  (well_formed
     (state_of (DataProductController.create fuel strategyFactory dto v w)) ∧
   tails_idle
     (state_of (DataProductController.create fuel strategyFactory dto v w))) ∧
  (well_formed
     (state_of (DataProductController.update fuel strategyFactory i dto v w)) ∧
   tails_idle
     (state_of (DataProductController.update fuel strategyFactory i dto v w))).
Proof.
  intros Hwf Htails.
  destruct (strategies_keep_invariants fuel i dto w Hwf Htails)
    as (Hc1 & Hu1 & Hu2).
  unfold DataProductController.create, DataProductController.update,
    DataProductStrategyFactory.getStrategy.
  destruct (String.eqb (default "v1" v) "v1");
    [|destruct (String.eqb (default "v1" v) "v2")]; by split.
Qed.

Lemma Controller_keeps_invariants_witness :
  (well_formed
     (state_of (DataProductController.create 4 strategyFactory renamed
                  (Some "v1") boot)) ∧
   tails_idle
     (state_of (DataProductController.create 4 strategyFactory renamed
                  (Some "v1") boot))) ∧
  (well_formed
     (state_of (DataProductController.update 4 strategyFactory "0" renamed
                  (Some "v1") boot)) ∧
   tails_idle
     (state_of (DataProductController.update 4 strategyFactory "0" renamed
                  (Some "v1") boot))).
Proof.
  apply (Controller_keeps_invariants 4 "0" renamed (Some "v1") boot).
  - exact well_formed_boot.
  - by split.
Defined.

(** X20. When the store holds the document of the route's identifier, a
    request that passes validation makes [update] of v2 run forever: after
    any number of steps it is still running, no audit or message line has
    been written, and from the second step on the stored name is already
    the name of the request. *)
Theorem StrategyV2_update_never_ends_on_stored fuel i dto w :
  falsy (DataProductDto.name dto) = false →
  falsy (DataProductDto.infoport dto) = false →
  holds w i →
  ∃ w', DataProductStrategyV2.update fuel strategyV2 i dto w = OutOfFuel w' ∧
        console w' = console w ∧
        (2 ≤ fuel →
         DataProductEntity.name <$> collection w' !! i
           = DataProductDto.name dto).
Proof.
  intros Hname Hport Hholds.
  unfold DataProductStrategyV2.update, bind, setNext, Handler_handle.
  destruct fuel as [|fuel]; [eexists; split_and!; [done|done|lia]|].
  rewrite handle_step.
  change (DataProductStrategyV2.validateUpdate strategyV2)
    with ValidateUpdateHandler.
  rewrite ValidateUpdateHandler_checks. simpl DataProductDto.name.
  simpl DataProductDto.infoport. rewrite Hname, Hport. simpl orb.
  cbv beta iota.
  change (successor _ ValidateUpdateHandler)
    with (Some BusinessUpdateHandlerV2).
  cbv beta iota.
  match goal with
  | |- context [handle successor process fuel BusinessUpdateHandlerV2
                  (Some ?q) ?w0] =>
      destruct (BusinessUpdateHandlerV2_spins fuel q i w0)
        as (w' & Hrun & _ & Hconsole & _ & Hstored);
      [reflexivity | exact Hholds |];
      unfold Handler_handle in Hrun; rewrite Hrun
  end.
  exists w'. split_and!; [done | done |].
  intros Hfuel. destruct (DataProductDto.name dto) as [n|] eqn:Hn; [|done].
  apply Hstored; [lia | exact Hn].
Qed.

Lemma StrategyV2_update_never_ends_on_stored_witness :
  ∃ w', DataProductStrategyV2.update 16 strategyV2 "0" renamed
          (stored catalogA) = OutOfFuel w' ∧
        console w' = console (stored catalogA) ∧
        (2 ≤ 16 →
         DataProductEntity.name <$> collection w' !! "0"
           = DataProductDto.name renamed).
Proof.
  apply (StrategyV2_update_never_ends_on_stored 16 "0" renamed
           (stored catalogA)).
  - reflexivity.
  - reflexivity.
  - exists catalogA. split; reflexivity.
Defined.
